(** * fexp: a shallow embedding of [fexp/plotting.py] and [fexp/writers.py]

    The two modules of the repository are embedded as executable Rocq
    functions.  Python exceptions are values of [Exn]; a call that may raise
    returns [Exn + A].  The file system and the clock touched by
    [write_image] are threaded explicitly through a small state-and-error
    monad.  The third-party libraries (SimpleITK, matplotlib, scikit-image,
    the parts of the Python runtime that depend on its version) and the
    sibling module [fexp.readers], none of which is part of the two source
    files, enter as the fields of interface classes: what they compute is
    left open, and each call that can raise has a way to do so. *)

From Stdlib Require Import ZArith Ascii DecimalString DecimalZ SpecFloat.
From stdpp Require Import base option list strings gmap fin_maps.

Local Open Scope Z_scope.
Local Open Scope nat_scope.

(** ** Python values shared by both modules *)

(** The exceptions the two modules raise or let through. *)
Inductive Exn :=
| TypeError (msg : string)
| KeyError (key : string)
| IndexError (msg : string)
| ValueError (msg : string)
| RuntimeError (msg : string).

(** A Python [float] is an IEEE-754 binary64 number. *)
Abbreviation float := spec_float (only parsing).

(** [float(z)] for an integer that is exactly representable. *)
Definition float_of_Z (z : Z) : float := binary_normalize 53 1024 z 0 false.

(** [m * 2**e], rounded to binary64. *)
Definition float_ldexp (m e : Z) : float := binary_normalize 53 1024 m e false.

(** [bool(x)] for a float: every value except [0.0] and [-0.0] is truthy
    (a NaN is truthy as well). *)
Definition float_truthy (x : float) : bool := negb (SFeqb x (S754_zero false)).

(** A numpy array: its shape and its elements in row-major order. *)
Record ndarray (E : Type) := mk_ndarray { shape : list nat; flat : list E }.
Arguments mk_ndarray {E} _ _.
Arguments shape {E} _.
Arguments flat {E} _.

Definition ndim {E} (a : ndarray E) : nat := length (shape a).

Definition prod_list (l : list nat) : nat := foldr Nat.mul 1 l.

(** An array is well formed when it holds as many elements as its shape
    announces. *)
Definition well_formed {E} (a : ndarray E) : Prop :=
  length (flat a) = prod_list (shape a).

(** [a[:, ..., i, ...]] with the integer [i] at axis [k]: the axis is
    removed from the shape.  numpy raises [IndexError] when the array has no
    axis [k] or when [i] is out of bounds. *)
Definition take_axis {E} (k i : nat) (a : ndarray E) : Exn + ndarray E :=
  match shape a !! k with
  | None => inl (IndexError "too many indices for array")
  | Some n =>
      if i <? n then
        let inner := prod_list (drop (S k) (shape a)) in
        let outer := prod_list (take k (shape a)) in
        inr {| shape := take k (shape a) ++ drop (S k) (shape a);
               flat := flat_map
                         (λ o, take inner (drop ((o * n + i) * inner) (flat a)))
                         (seq 0 outer) |}
      else inl (IndexError "index is out of bounds for axis")
  end.

(** [image[..., 0]] and [image[0, ...]]. *)
Definition index_last {E} (i : nat) (a : ndarray E) : Exn + ndarray E :=
  take_axis (ndim a - 1) i a.
Definition index_first {E} (i : nat) (a : ndarray E) : Exn + ndarray E :=
  take_axis 0 i a.

(** [shape[i]] of a Python tuple. *)
Definition shape_at {E} (a : ndarray E) (i : nat) : Exn + nat :=
  match shape a !! i with
  | Some n => inr n
  | None => inl (IndexError "tuple index out of range")
  end.

(** ** [fexp/plotting.py] *)

Module Plotting.

(** A masked array ([numpy.ma]): the data and, per element, whether it is
    masked.  A plain array is one without a mask. *)
Record masked_array := mk_masked {
  ma_shape : list nat;
  ma_data : list float;
  ma_mask : option (list bool)
}.

Definition plain (a : ndarray float) : masked_array :=
  {| ma_shape := shape a; ma_data := flat a; ma_mask := None |}.

(** [ma.masked_where(overlay < threshold, overlay)]. *)
Definition masked_where_lt (threshold : float) (a : ndarray float)
  : masked_array :=
  {| ma_shape := shape a;
     ma_data := flat a;
     ma_mask := Some (map (λ v, SFltb v threshold) (flat a)) |}.

(** What the image drawn from a masked array shows at position [i]: the
    value handed to the colour map, or nothing where the element is
    masked. *)
Definition shown (m : masked_array) (i : nat) : option float :=
  match ma_mask m with
  | None => ma_data m !! i
  | Some bs =>
      match bs !! i with
      | Some true => None
      | _ => ma_data m !! i
      end
  end.

(** The artists the functions add to the matplotlib axes, in drawing
    order. *)
Inductive Artist :=
| AxesImage (im : masked_array) (cmap : option string) (alpha : option float)
            (extent : option (nat * nat * nat * nat))
| Line2D (xs ys : list float) (style : string) (linewidth : float)
| Markers (xs ys : list float) (fmt : string) (markersize : nat)
| Rectangle (xy : list float) (rwidth rheight : float) (edgecolor : string)
            (linewidth : float).

Record Figure := mk_figure {
  fig_dpi : nat;
  fig_width_px : nat;     (* figsize[0] * dpi *)
  fig_height_px : nat;    (* figsize[1] * dpi *)
  fig_artists : list Artist
}.

(** [add_2d_overlay(overlay, ax, threshold, cmap, alpha)]: the artist it
    hands to [ax.imshow]. *)
Definition add_2d_overlay (overlay : ndarray float) (threshold : float)
    (cmap : string) (alpha : float) : Artist :=
  let overlay :=
    if float_truthy threshold then masked_where_lt threshold overlay
    else plain overlay in
  AxesImage overlay (Some cmap) (Some alpha) None.

(** [bbox[i]] of a tuple of floats. *)
Definition bbox_at (t : list float) (i : nat) : Exn + float :=
  match t !! i with
  | Some x => inr x
  | None => inl (IndexError "tuple index out of range")
  end.

(** [add_2d_bbox(bbox, ax, linewidth, color)]: the patch it hands to
    [ax.add_patch], an unfilled rectangle anchored at [bbox[:2][::-1]], of
    width [bbox[3]] and height [bbox[2]]. *)
Definition add_2d_bbox (bbox : list float) (linewidth : float)
    (color : string) : Exn + Artist :=
  match bbox_at bbox 3 with
  | inl e => inl e
  | inr w =>
      match bbox_at bbox 2 with
      | inl e => inl e
      | inr h => inr (Rectangle (rev (take 2 bbox)) w h color linewidth)
      end
  end.

(** The parts of matplotlib and PIL that [plot_2d] calls with arguments
    of the caller and that may refuse them.  A fault is the exception
    raised instead of the effect.  The remaining calls (the layout of lines
    70, 83 and 98 to 100, [seek], [close]) take constants on a figure that
    has just been made. *)
Class Backend := {
  (* plt.subplots(1, figsize=(width / 100, height / 100)) *)
  subplots_fault : nat → nat → option Exn;
  (* ax.imshow, ax.plot and ax.add_patch on axes that hold [artists] *)
  draw_fault : list Artist → Artist → option Exn;
  (* fig.savefig(buffer, pad_inches=0, dpi=dpi); PIL.Image.open(buffer) *)
  savefig_fault : Figure → option Exn
}.

Section WithContours.

Context `{Backend}.

(** [skimage.measure.find_contours(mask, level)]: each contour is a list of
    (row, column) points; the call raises on a mask it cannot trace. *)
Variable find_contours :
  ndarray float → float → Exn + list (list (float * float)).

(** The artist is added to the axes, unless the library refuses it. *)
Definition draw (ax : list Artist) (a : Artist) : Exn + list Artist :=
  match draw_fault ax a with
  | Some e => inl e
  | None => inr (ax ++ [a])
  end.

Fixpoint draw_all (ax : list Artist) (artists : list Artist)
  : Exn + list Artist :=
  match artists with
  | [] => inr ax
  | a :: rest =>
      match draw ax a with
      | inl e => inl e
      | inr ax => draw_all ax rest
      end
  end.

(** [add_2d_contours(mask, axes, linewidth, color)]: one line per contour,
    columns as abscissae and rows as ordinates; the lines it plots, in
    order. *)
Definition add_2d_contours (mask : ndarray float) (linewidth : float)
    (color : string) : Exn + list Artist :=
  match find_contours mask (float_ldexp 1 (-1)) with
  | inl e => inl e
  | inr contours =>
      inr (map (λ contour,
                  Line2D (map snd contour) (map fst contour) color linewidth)
               contours)
  end.

(** The channel normalisation of [plot_2d] (lines 72 to 80): the image
    passed to [imshow] and the colour map chosen for it. *)
Definition normalize_channels (image : ndarray float)
  : Exn + (ndarray float * option string) :=
  let squeezed :=
    if ndim image =? 3 then
      if default 0 (last (shape image)) =? 1 then index_last 0 image
      else if default 0 (head (shape image)) =? 1 then index_first 0 image
      else inr image
    else inr image in
  match squeezed with
  | inl e => inl e
  | inr image =>
      inr (image, if ndim image =? 2 then Some "gray" else None)
  end.

(** [points[:, j]] of an array of points. *)
Definition column (j : nat) (points : ndarray float) : Exn + list float :=
  match take_axis 1 j points with
  | inl e => inl e
  | inr a => inr (flat a)
  end.

(** [for bbox in bboxes: add_2d_bbox(bbox, ax, linewidth, bbox_color)]. *)
Fixpoint add_bboxes (ax : list Artist) (bboxes : list (list float))
    (linewidth : float) (color : string) : Exn + list Artist :=
  match bboxes with
  | [] => inr ax
  | bbox :: rest =>
      match add_2d_bbox bbox linewidth color with
      | inl e => inl e
      | inr r =>
          match draw ax r with
          | inl e => inl e
          | inr ax => add_bboxes ax rest linewidth color
          end
      end
  end.

(** [plot_2d]: the figure that is rasterised into the returned image.  The
    statements follow lines 64 to 108 in their order, so that the exception
    returned is the first one raised. *)
Definition plot_2d (image : ndarray float)
    (mask : option (ndarray float)) (bboxes : option (list (list float)))
    (points overlay : option (ndarray float))
    (linewidth : float) (mask_color bbox_color points_color : string)
    (overlay_cmap : string) (overlay_threshold overlay_alpha : float)
  : Exn + Figure :=
  let dpi := 100 in
  match shape_at image 1 with
  | inl e => inl e
  | inr width =>
  match shape_at image 0 with
  | inl e => inl e
  | inr height =>
  match subplots_fault width height with
  | Some e => inl e
  | None =>
  match normalize_channels image with
  | inl e => inl e
  | inr (image, cmap) =>
  match draw [] (AxesImage (plain image) cmap None
                           (Some (0, width, height, 0))) with
  | inl e => inl e
  | inr ax =>
  match (match mask with
         | Some mask =>
             match add_2d_contours mask linewidth mask_color with
             | inl e => inl e
             | inr lines => draw_all ax lines
             end
         | None => inr ax
         end) with
  | inl e => inl e
  | inr ax =>
  match (match bboxes with
         | Some bboxes => add_bboxes ax bboxes linewidth bbox_color
         | None => inr ax
         end) with
  | inl e => inl e
  | inr ax =>
  match (match overlay with
         | Some overlay =>
             draw ax (add_2d_overlay overlay overlay_threshold overlay_cmap
                                     overlay_alpha)
         | None => inr ax
         end) with
  | inl e => inl e
  | inr ax =>
  match (match points with
         | Some points =>
             match column 1 points with
             | inl e => inl e
             | inr xs =>
                 match column 0 points with
                 | inl e => inl e
                 | inr ys => draw ax (Markers xs ys (points_color +:+ ".") 2)
                 end
             end
         | None => inr ax
         end) with
  | inl e => inl e
  | inr ax =>
      let fig := {| fig_dpi := dpi; fig_width_px := width;
                    fig_height_px := height; fig_artists := ax |} in
      match savefig_fault fig with
      | Some e => inl e
      | None => inr fig
      end
  end end end end end end end end end.

End WithContours.

End Plotting.

(** ** Strings, paths and integers as Python and [pathlib] treat them *)

Module Py.

(** [needle in hay]. *)
Fixpoint contains (needle hay : string) : bool :=
  String.prefix needle hay ||
  match hay with
  | EmptyString => false
  | String _ hay' => contains needle hay'
  end.

Definition startswith (p s : string) : bool := String.prefix p s.

Definition endswith (p s : string) : bool :=
  (String.length p <=? String.length s) &&
  String.eqb (String.substring (String.length s - String.length p)
                               (String.length p) s) p.

(** [s.rfind(c)] for a single character; [None] stands for [-1]. *)
Fixpoint rfind (c : ascii) (s : string) : option nat :=
  match s with
  | EmptyString => None
  | String a s' =>
      match rfind c s' with
      | Some i => Some (S i)
      | None => if Ascii.eqb a c then Some 0 else None
      end
  end.

(** [s.split(sep)] for a single-character separator. *)
Fixpoint split (sep : ascii) (s : string) : list string :=
  match s with
  | EmptyString => [EmptyString]
  | String c s' =>
      if Ascii.eqb c sep then EmptyString :: split sep s'
      else match split sep s' with
           | [] => [String c EmptyString]
           | p :: ps => String c p :: ps
           end
  end.

(** The one-character string that Python writes ['\\']. *)
Definition backslash : string := String (ascii_of_nat 92) EmptyString.

(** [sep.join(parts)]. *)
Definition join (sep : string) (parts : list string) : string :=
  String.concat sep parts.

(** [str(n)] for an integer. *)
Definition str_int (z : Z) : string := NilZero.string_of_int (Z.to_int z).

Fixpoint zeros (n : nat) : string :=
  match n with
  | O => EmptyString
  | S n => String "0" (zeros n)
  end.

(** [f'{z:03d}']: sign-aware zero padding to a minimum width of three. *)
Definition format_03d (z : Z) : string :=
  if (z <? 0)%Z then
    let digits := str_int (- z) in
    String "-" (zeros (2 - String.length digits) +:+ digits)
  else
    let digits := str_int z in
    zeros (3 - String.length digits) +:+ digits.

(** The characters [int()] strips from both ends of an ASCII string: tab,
    line feed, vertical tab, form feed, carriage return and space. *)
Definition is_space (c : ascii) : bool :=
  let n := nat_of_ascii c in
  ((9 <=? n) && (n <=? 13)) || (n =? 32).

Definition is_ascii (c : ascii) : bool := nat_of_ascii c <? 128.

(** [s.isascii()]. *)
Definition isascii (s : string) : bool :=
  forallb is_ascii (String.list_ascii_of_string s).

Definition is_digit (c : ascii) : bool :=
  let n := nat_of_ascii c in (48 <=? n) && (n <=? 57).

Fixpoint lstrip (s : list ascii) : list ascii :=
  match s with
  | c :: s' => if is_space c then lstrip s' else s
  | [] => []
  end.

Definition strip (s : list ascii) : list ascii :=
  rev (lstrip (rev (lstrip s))).

(** The digits of a literal, most significant first.  Single underscores
    may separate digits; [prev] tells whether the previous character was a
    digit. *)
Fixpoint digits_of (prev : bool) (s : list ascii) : option (list nat) :=
  match s with
  | [] => if prev then Some [] else None
  | c :: s' =>
      if is_digit c then
        cons (nat_of_ascii c - 48) <$> digits_of true s'
      else if Ascii.eqb c "_" && prev then digits_of false s'
      else None
  end.

Definition value_of (ds : list nat) : Z :=
  fold_left (λ acc d, (10 * acc + Z.of_nat d)%Z) ds 0%Z.

(** The value of a sequence of digits, unless there are more of them than
    the interpreter converts: [max_str_digits] is
    [sys.get_int_max_str_digits()], 0 when there is no limit; sequences of
    up to 640 digits are never refused. *)
Definition checked_value (max_str_digits : nat) (ds : list nat) : option Z :=
  if (640 <? length ds) && (0 <? max_str_digits)
     && (max_str_digits <? length ds)
  then None else Some (value_of ds).

(** [int(s)] in base ten on an ASCII string; [None] stands for the
    [ValueError] it raises on anything that is not an integer literal, or
    on a literal of too many digits. *)
Definition int (max_str_digits : nat) (s : string) : option Z :=
  match strip (String.list_ascii_of_string s) with
  | [] => None
  | c :: rest =>
      if Ascii.eqb c "-" then
        Z.opp <$> (digits_of false rest ≫= checked_value max_str_digits)
      else if Ascii.eqb c "+" then
        digits_of false rest ≫= checked_value max_str_digits
      else digits_of false (c :: rest) ≫= checked_value max_str_digits
  end.

(** [max(l)] of a non-empty list of integers. *)
Definition max_list (x : Z) (l : list Z) : Z := foldl Z.max x l.

(** The final component of a path that [pathlib] has normalised. *)
Definition path_name (p : string) : string :=
  match rfind "/" p with
  | Some i => String.substring (S i) (String.length p - S i) p
  | None => p
  end.

(** [PurePath.suffix]: the last dot of the final component and what
    follows it, unless that dot opens or closes the name. *)
Definition suffix (p : string) : string :=
  let name := path_name p in
  match rfind "." name with
  | Some i =>
      if (0 <? i) && (i <? String.length name - 1)
      then String.substring i (String.length name - i) name
      else EmptyString
  | None => EmptyString
  end.

(** [os.path.join(dir, name)] for a relative [name]. *)
Definition os_path_join (dir name : string) : string :=
  if String.eqb dir EmptyString then name
  else if endswith "/" dir then dir +:+ name
  else dir +:+ "/" +:+ name.

(** [str(dir / name)] for a normalised [dir] and a one-component [name]. *)
Definition pathlib_join (dir name : string) : string :=
  if String.eqb dir "." then name
  else if endswith "/" dir then dir +:+ name
  else dir +:+ "/" +:+ name.

(** [fnmatch(name, 'IMG-*.dcm')]. *)
Definition fnmatch_IMG_dcm (name : string) : bool :=
  startswith "IMG-" name && endswith ".dcm" name &&
  (8 <=? String.length name).

(** [glob.has_magic(s)]: one of the characters [*], [?] and [[] occurs. *)
Definition has_magic (s : string) : bool :=
  contains "*" s || contains "?" s || contains "[" s.

End Py.

(** ** [fexp/writers.py] *)

Module Writers.

(** The values a metadata dictionary holds: tuples of floats (spacing,
    origin, direction) and strings (series description, modality). *)
Inductive Value :=
| VFloats (xs : list float)
| VStr (s : string).

Fixpoint floats_eqb (xs ys : list float) : bool :=
  match xs, ys with
  | [], [] => true
  | x :: xs, y :: ys => SFeqb x y && floats_eqb xs ys
  | _, _ => false
  end.

(** [a != b]. *)
Definition value_ne (a b : Value) : bool :=
  match a, b with
  | VFloats xs, VFloats ys => negb (floats_eqb xs ys)
  | VStr s, VStr t => negb (String.eqb s t)
  | _, _ => true
  end.

(** What a path of the file system holds.  [I] is the type of SimpleITK
    images. *)
Inductive File (I : Type) :=
| Directory
| Volume (image : I) (use_compression : bool)
| DicomSlice (image : I) (tags : gmap string string) (use_compression : bool)
| Other (content : string).
Arguments Directory {I}.
Arguments Volume {I} _ _.
Arguments DicomSlice {I} _ _ _.
Arguments Other {I} _.

(** The libraries [write_image] calls: SimpleITK, [fexp.readers], [time],
    [glob] and the parts of the interpreter that depend on its version.  A
    codec fault is the message of the [RuntimeError] SimpleITK raises
    instead of writing. *)
Class Libraries := {
  Image : Type;
  GetImageFromArray : ndarray float → Exn + Image;
  (* sitk.GetArrayFromImage: the voxels of an image; the code does not call
     it, the statements use it to say what an image holds *)
  GetArrayFromImage : Image → ndarray float;
  SetSpacing : Image → Value → Exn + Image;
  SetOrigin : Image → Value → Exn + Image;
  SetDirection : Image → Value → Exn + Image;
  GetDirection : Image → list float;
  GetDepth : Image → nat;
  (* sitk_image[:, :, idx] *)
  Slice : Image → nat → Exn + Image;
  TransformIndexToPhysicalPoint : Image → list nat → Exn + list float;
  (* sitk.WriteImage(image, path, use_compression) *)
  WriteImage_fault :
    gmap string (File Image) → Image → string → bool → option string;
  (* ImageFileWriter.Execute(image_slice), file name and compression set *)
  Execute_fault :
    gmap string (File Image) → Image → gmap string string → string → bool →
    option string;
  (* fexp.readers *)
  resample_sitk_image : Image → Value → bool → Exn + Image;
  DICOM_MODALITY_TAG : string;
  (* time.strftime(format) at the n-th reading of the clock *)
  strftime : string → nat → string;
  (* str(x) for a float *)
  str_float : float → string;
  (* glob(pattern) for a pattern whose directory part holds one of the
     characters *, ? and [, which glob expands against the file system *)
  glob_magic : gmap string (File Image) → string → list string;
  (* sys.get_int_max_str_digits(), 0 when integers of any length convert *)
  int_max_str_digits : nat;
  (* int(s) for a string with characters outside ASCII, which the
     interpreter first maps through the Unicode database; None when it
     raises ValueError *)
  int_non_ascii : string → option Z;
  (* the message of the ValueError that int(s) raises *)
  int_error : string → string
}.

Section WriteImage.

Context `{Libraries}.

(** The state [write_image] acts on: the files by path and the number of
    clock readings made so far. *)
Record World := mk_world {
  files : gmap string (File Image);
  clock : nat
}.

(** Computations that read and change the world and may raise. *)
Definition M (A : Type) : Type := World → (Exn + A) * World.

Definition ret {A} (a : A) : M A := λ w, (inr a, w).
Definition raise {A} (e : Exn) : M A := λ w, (inl e, w).
Definition bind {A B} (c : M A) (k : A → M B) : M B :=
  λ w, match c w with
       | (inl e, w') => (inl e, w')
       | (inr a, w') => k a w'
       end.
Definition lift {A} (r : Exn + A) : M A :=
  match r with inl e => raise e | inr a => ret a end.

Notation "x <- c ;; k" := (bind c (λ x, k))
  (at level 100, c at next level, right associativity).
Notation "c ;;; k" := (bind c (λ _, k))
  (at level 100, right associativity).

(** [time.strftime(format)]. *)
Definition now (format : string) : M string :=
  λ w, (inr (strftime format (clock w)),
        {| files := files w; clock := S (clock w) |}).

(** [filepath.is_dir()]. *)
Definition is_dir (path : string) : M bool :=
  λ w, (inr (match files w !! path with Some Directory => true | _ => false end),
        w).

Definition put_file (path : string) (f : File Image) : M unit :=
  λ w, (inr tt, {| files := <[path := f]> (files w); clock := clock w |}).

(** [metadata[key]]. *)
Definition getitem (metadata : gmap string Value) (key : string)
  : Exn + Value :=
  match metadata !! key with
  | Some v => inr v
  | None => inl (KeyError key)
  end.

(** [key in metadata]. *)
Definition has_key (metadata : gmap string Value) (key : string) : bool :=
  bool_decide (is_Some (metadata !! key)).

(** [bool(metadata)]. *)
Definition dict_truthy (metadata : gmap string Value) : bool :=
  negb (bool_decide (metadata = ∅)).

(** [t[i]] of a tuple of floats. *)
Definition tuple_at (t : list float) (i : nat) : Exn + float :=
  match t !! i with
  | Some x => inr x
  | None => inl (IndexError "tuple index out of range")
  end.

(** [image_slice.SetMetaData(tag, value)]: the binding takes strings
    only. *)
Definition SetMetaData (tags : gmap string string) (tag : string)
    (value : Value) : Exn + gmap string string :=
  match value with
  | VStr s => inr (<[tag := s]> tags)
  | VFloats _ =>
      inl (TypeError "in method 'Image_SetMetaData', argument 3 of type 'std::string const &'")
  end.

Definition possible_exts : list string :=
  [".nrrd"; ".mhd"; ".mha"; ".nii"; ".nii.gz"; ".dcm"].

(** [repr(possible_exts)]. *)
Definition possible_exts_repr : string :=
  "['.nrrd', '.mhd', '.mha', '.nii', '.nii.gz', '.dcm']".

(** [any([_ in filepath.suffix for _ in possible_exts])]. *)
Definition has_possible_ext (filepath : string) : bool :=
  existsb (λ ext, Py.contains ext (Py.suffix filepath)) possible_exts.

(** The name of [path] when it is an entry of the directory [dir]. *)
Definition entry_name (dir path : string) : option string :=
  let under prefix :=
    if String.prefix prefix path
    then Some (String.substring (String.length prefix)
                 (String.length path - String.length prefix) path)
    else None in
  let name :=
    if String.eqb dir "." then Some path
    else if Py.endswith "/" dir then under dir
    else under (dir +:+ "/") in
  match name with
  | Some n =>
      if Py.contains "/" n || String.eqb n EmptyString || String.eqb n "."
      then None else Some n
  | None => None
  end.

(** [glob(os.path.join(filepath, 'IMG-*.dcm'))].  When the directory part
    of the pattern is free of the characters that [glob] expands, the
    result is the matching entries of the directory, each joined to the
    directory path; otherwise the directory part is a pattern itself and
    the result is what [glob] finds for it. *)
Definition glob_paths (fs : gmap string (File Image)) (filepath : string)
  : list string :=
  if Py.has_magic filepath then
    glob_magic fs (Py.os_path_join filepath "IMG-*.dcm")
  else
    omap (λ path,
            match entry_name filepath path with
            | Some name =>
                if Py.fnmatch_IMG_dcm name
                then Some (Py.os_path_join filepath name) else None
            | None => None
            end)
         (map fst (map_to_list fs)).

Definition glob_IMG_dcm (filepath : string) : M (list string) :=
  λ w, (inr (glob_paths (files w) filepath), w).

(** [int(s)] on a string. *)
Definition int_str (s : string) : Exn + Z :=
  match (if Py.isascii s then Py.int int_max_str_digits s
         else int_non_ascii s) with
  | Some z => inr z
  | None => inl (ValueError (int_error s))
  end.

(** [int(_.split('-')[1])] on one path returned by [glob]. *)
Definition series_of (path : string) : Exn + Z :=
  match Py.split "-" path !! 1 with
  | None => inl (IndexError "list index out of range")
  | Some field => int_str field
  end.

(** The list comprehension of line 72. *)
Fixpoint series_in (paths : list string) : Exn + list Z :=
  match paths with
  | [] => inr []
  | p :: rest =>
      match series_of p with
      | inl e => inl e
      | inr z =>
          match series_in rest with
          | inl e => inl e
          | inr zs => inr (z :: zs)
          end
      end
  end.

(** Line 73: [0 if not series_in_directory else max(series_in_directory)]. *)
Definition curr_series_of (series_in_directory : list Z) : Z :=
  match series_in_directory with
  | [] => 0%Z
  | z :: zs => Py.max_list z zs
  end.

(** The name of the file that receives slice [idx] of series [series]. *)
Definition slice_name (series : Z) (idx : nat) : string :=
  "IMG-" +:+ Py.format_03d series +:+ "-"
         +:+ Py.format_03d (Z.of_nat idx) +:+ ".dcm".

(** [for tag, value in series_tag_values: image_slice.SetMetaData(tag, value)]. *)
Fixpoint set_series_tags (tags : gmap string string)
    (series_tag_values : list (string * Value)) : Exn + gmap string string :=
  match series_tag_values with
  | [] => inr tags
  | (tag, value) :: rest =>
      match SetMetaData tags tag value with
      | inl e => inl e
      | inr tags => set_series_tags tags rest
      end
  end.

(** The body of the loop of lines 99 to 113 for one slice.  The slice cut
    out of the volume starts with an empty metadata dictionary. *)
Definition write_slice (sitk_image : Image) (filepath : string)
    (compression : bool) (series_tag_values : list (string * Value))
    (curr_series : Z) (idx : nat) : M unit :=
  image_slice <- lift (Slice sitk_image idx) ;;
  tags <- lift (set_series_tags ∅ series_tag_values) ;;
  date <- now "%Y%m%d" ;;
  let tags := <["0008|0012" := date]> tags in
  time <- now "%H%M%S" ;;
  let tags := <["0008|0013" := time]> tags in
  position <- lift (TransformIndexToPhysicalPoint sitk_image [0; 0; idx]) ;;
  let tags := <["0020|0032" := Py.join Py.backslash (map str_float position)]> tags in
  let tags := <["0020|0013" := Py.str_int (Z.of_nat idx)]> tags in
  let file_name := Py.pathlib_join filepath (slice_name curr_series idx) in
  λ w,
    match Execute_fault (files w) image_slice tags file_name compression with
    | Some msg => raise (RuntimeError msg) w
    | None => put_file file_name (DicomSlice image_slice tags compression) w
    end.

(** [for idx in indices: ...]. *)
Fixpoint for_each (indices : list nat) (body : nat → M unit) : M unit :=
  match indices with
  | [] => ret tt
  | idx :: rest => body idx ;;; for_each rest body
  end.

(** Lines 42 to 53: the SimpleITK image and its geometry. *)
Definition prepare (data : ndarray float)
    (metadata : option (gmap string Value)) (resample : bool)
  : Exn + Image :=
  match GetImageFromArray data with
  | inl e => inl e
  | inr sitk_image =>
  match metadata with
  | None => inl (TypeError "'NoneType' object is not subscriptable")
  | Some metadata =>
  match getitem metadata "spacing" with
  | inl e => inl e
  | inr spacing =>
  match SetSpacing sitk_image spacing with
  | inl e => inl e
  | inr sitk_image =>
  match
    (if resample then
       match getitem metadata "orig_spacing" with
       | inl e => inl e
       | inr orig_spacing =>
           if value_ne orig_spacing spacing
           then resample_sitk_image sitk_image orig_spacing resample
           else inr sitk_image
       end
     else inr sitk_image)
  with
  | inl e => inl e
  | inr sitk_image =>
      if dict_truthy metadata then
        match
          (match metadata !! "origin" with
           | Some origin => SetOrigin sitk_image origin
           | None => inr sitk_image
           end)
        with
        | inl e => inl e
        | inr sitk_image =>
            match metadata !! "direction" with
            | Some direction => SetDirection sitk_image direction
            | None => inr sitk_image
            end
        end
      else inr sitk_image
  end end end end end.

(** Lines 56 to 64: the single-file write and the handling of the codec's
    [RuntimeError]. *)
Definition write_single (sitk_image : Image) (filepath : string)
    (compression : bool) : M unit :=
  let use_compression :=
    if String.eqb (Py.suffix filepath) "nii.gz" then true else compression in
  λ w,
    match WriteImage_fault (files w) sitk_image filepath use_compression with
    | None => put_file filepath (Volume sitk_image use_compression) w
    | Some error_str =>
        if Py.startswith "Exception thrown in SimpleITK WriteImage" error_str
        then
          if Py.contains ("Write: Error writing " +:+ filepath) error_str
          then raise (RuntimeError ("Cannot write to " +:+ filepath +:+ ".")) w
          else ret tt w
        else raise (RuntimeError error_str) w
    end.

(** Lines 69 to 113: the DICOM series. *)
Definition write_series (data : ndarray float) (sitk_image : Image)
    (filepath : string) (compression : bool) (metadata : gmap string Value)
  : M unit :=
  if negb (ndim data =? 3) then
    raise (ValueError ("For dicom series, only 3D data is supported. Got "
                       +:+ Py.str_int (Z.of_nat (ndim data)) +:+ "."))
  else
    paths <- glob_IMG_dcm filepath ;;
    series_in_directory <- lift (series_in paths) ;;
    let curr_series := curr_series_of series_in_directory in
    modification_time <- now "%H%M%S" ;;
    modification_date <- now "%Y%m%d" ;;
    let direction := GetDirection sitk_image in
    d0 <- lift (tuple_at direction 0) ;;
    d3 <- lift (tuple_at direction 3) ;;
    d6 <- lift (tuple_at direction 6) ;;
    d1 <- lift (tuple_at direction 1) ;;
    d4 <- lift (tuple_at direction 4) ;;
    d7 <- lift (tuple_at direction 7) ;;
    let series_tag_values :=
      [("0008|0031", VStr modification_time);
       ("0008|0021", VStr modification_date);
       ("0008|0008", VStr ("DERIVED" +:+ Py.backslash +:+ "SECONDARY"));
       ("0020|000e", VStr ("1.2.826.0.1.3680043.2.1125." +:+ modification_date
                           +:+ ".1" +:+ modification_time));
       ("0020|0037", VStr (Py.join Py.backslash (map str_float [d0; d3; d6; d1; d4; d7])));
       ("0008|103e", default (VStr ("fexp generated number: "
                                    +:+ Py.str_int curr_series))
                             (metadata !! "series_description"))] ++
      match metadata !! "modality" with
      | Some modality => [(DICOM_MODALITY_TAG, modality)]
      | None => []
      end in
    for_each (seq 0 (GetDepth sitk_image))
      (write_slice sitk_image filepath compression series_tag_values
                   curr_series).

(** [write_image(data, filepath, compression, metadata, resample)].
    [filepath] is the path as [pathlib.Path(filepath).expanduser()] prints
    it; [metadata = None] is the default of the parameter.  Past [prepare]
    the metadata is a dictionary, which is what the series branch reads. *)
Definition write_image (data : ndarray float) (filepath : string)
    (compression : bool) (metadata : option (gmap string Value))
    (resample : bool) : M unit :=
  sitk_image <- lift (prepare data metadata resample) ;;
  if has_possible_ext filepath then
    write_single sitk_image filepath compression
  else
    dir <- is_dir filepath ;;
    if dir : bool then
      write_series data sitk_image filepath compression
                   (default ∅ metadata)
    else
      raise (ValueError ("Filename extension has to be one of "
                         +:+ possible_exts_repr +:+ " or a directory.")).

(** *** Vocabulary of the statements about [write_image] *)

(** Between the file systems [before] and [after], series [series] of the
    [D] slices of [img] was written into the directory [filepath], one file
    per slice, and nothing else changed. *)
Definition series_written (img : Image) (filepath : string)
    (compression : bool) (series : Z) (D : nat)
    (before after : gmap string (File Image)) : Prop :=
  (∀ idx, idx < D →
     ∃ s tags,
       Slice img idx = inr s ∧
       after !! Py.pathlib_join filepath (slice_name series idx)
         = Some (DicomSlice s tags compression) ∧
       tags !! "0020|0013" = Some (Py.str_int (Z.of_nat idx))) ∧
  (∀ path,
     (∀ idx, idx < D →
        path ≠ Py.pathlib_join filepath (slice_name series idx)) →
     after !! path = before !! path).


End WriteImage.


End Writers.

(** ** A simulated library

    An instance of [Libraries] on which the embedding can be run: an image
    is the array it was made from, geometry setters accept any value, the
    clock is frozen and the two codecs fail exactly where the fault tables
    [write_fault] and [execute_fault] say so.  The simulation finds
    nothing for a pattern with a directory part to expand and converts
    ASCII strings only. *)

Module Sim.

Import Writers.

Definition depth (a : ndarray float) : nat :=
  match shape a with
  | [d; _; _] => d
  | _ => 0
  end.

Definition identity_direction : list float :=
  map float_of_Z [1; 0; 0; 0; 1; 0; 0; 0; 1]%Z.

(** Prints the floats that are integers, which is all the simulation
    produces. *)
Definition print_float (x : float) : string :=
  match x with
  | S754_zero false => "0.0"
  | S754_zero true => "-0.0"
  | S754_infinity false => "inf"
  | S754_infinity true => "-inf"
  | S754_nan => "nan"
  | S754_finite s m e =>
      (if s then "-" else "")
        +:+ Py.str_int (Z.shiftl (Z.pos m) e) +:+ ".0"
  end.

Definition frozen_clock (format : string) (n : nat) : string :=
  if String.eqb format "%Y%m%d" then "20200101" else "120000".

Definition libraries (write_fault execute_fault : string → option string)
  : Libraries :=
  {| Image := ndarray float;
     GetImageFromArray := inr;
     GetArrayFromImage := λ image, image;
     SetSpacing := λ image _, inr image;
     SetOrigin := λ image _, inr image;
     SetDirection := λ image _, inr image;
     GetDirection := λ _, identity_direction;
     GetDepth := depth;
     Slice := λ image idx, take_axis 0 idx image;
     TransformIndexToPhysicalPoint :=
       λ _ index, inr (map (λ i, float_of_Z (Z.of_nat i)) index);
     WriteImage_fault := λ _ _ path _, write_fault path;
     Execute_fault := λ _ _ _ path _, execute_fault path;
     resample_sitk_image := λ image _ _, inr image;
     DICOM_MODALITY_TAG := "0008|0060";
     strftime := frozen_clock;
     str_float := print_float;
     glob_magic := λ _ _, [];
     int_max_str_digits := 4300;
     int_non_ascii := λ _, None;
     int_error :=
       λ s, "invalid literal for int() with base 10: '" +:+ s +:+ "'" |}.

(** A codec that never fails. *)
Definition sound : Libraries := libraries (λ _, None) (λ _, None).

(** A codec whose single-file writer always fails for a reason other than
    an unwritable destination. *)
Definition no_writer_message : string :=
  "Exception thrown in SimpleITK WriteImage: sitk::ERROR: Unable to determine ImageIO writer for the requested file".

Definition failing : Libraries :=
  libraries (λ _, Some no_writer_message) (λ _, None).

(** Metadata with unit spacing only. *)
Definition unit_spacing : gmap string Value :=
  {[ "spacing" := VFloats (map float_of_Z [1; 1; 1]%Z) ]}.

(** A volume of [d] slices of one voxel each, every voxel equal to [v]. *)
Definition volume (d : nat) (v : Z) : ndarray float :=
  {| shape := [d; 1; 1]; flat := replicate d (float_of_Z v) |}.

(** A file system that holds the empty directory [/out] and nothing
    else. *)
Definition empty_out `{Libraries} : World :=
  {| files := {[ "/out" := Directory ]}; clock := 0 |}.

(** A file system that holds the empty directory [/data/scans.dcm] and
    nothing else. *)
Definition scans_dcm `{Libraries} : World :=
  {| files := {[ "/data/scans.dcm" := Directory ]}; clock := 0 |}.

(** A codec whose single-file writer reports [/data/scans.dcm] as
    unwritable. *)
Definition refused_message : string :=
  "Exception thrown in SimpleITK WriteImage: ImageFileWriter::Write: Error writing /data/scans.dcm".

Definition refusing : Libraries :=
  libraries (λ path, if String.eqb path "/data/scans.dcm"
                     then Some refused_message else None)
            (λ _, None).

(** A two-dimensional array. *)
Definition plane : ndarray float :=
  mk_ndarray [2; 2] (map float_of_Z [1; 2; 3; 4]%Z).

(** A matplotlib that draws whatever it is handed. *)
Definition agg : Plotting.Backend :=
  {| Plotting.subplots_fault := λ _ _, None;
     Plotting.draw_fault := λ _ _, None;
     Plotting.savefig_fault := λ _, None |}.

End Sim.

(** ** An auxiliary reader for the proofs

    Reads a string of decimal digits, leading zeros included, back into the
    number it denotes; used to show that distinct slice indices give
    distinct file names. *)
Definition decode (s : string) : option Z :=
  Z.of_uint <$> NilEmpty.uint_of_string s.

(** * Properties *)

(** ** Plotting *)

Section PlottingFacts.

Import Plotting.

Context `{Backend}.

Lemma flat_map_singletons {A} (l : list A) (k : nat) (pre : list A) :
  length pre = k →
  flat_map (λ o, take 1 (drop o (pre ++ l))) (seq k (length l)) = l.
Proof.
  revert k pre. induction l as [|x l IH]; intros k pre Hk; [done|].
  simpl. rewrite drop_app_length'; [|done]. simpl. f_equal.
  replace (pre ++ x :: l) with ((pre ++ [x]) ++ l) by (by rewrite <- app_assoc).
  apply IH. rewrite length_app. simpl. lia.
Qed.

Lemma index_last_singleton {E} (a : ndarray E) x y :
  shape a = [x; y; 1] →
  well_formed a →
  index_last 0 a = inr {| shape := [x; y]; flat := flat a |}.
Proof.
  intros Hs Hw. unfold index_last, take_axis, ndim. rewrite Hs. simpl.
  f_equal. f_equal.
  unfold well_formed in Hw. rewrite Hs in Hw. simpl in Hw.
  replace (x * (y * 1)) with (length (flat a)) by lia.
  etrans; [|exact (flat_map_singletons (flat a) 0 [] eq_refl)].
  apply flat_map_ext. intros o. by rewrite !Nat.mul_1_r, Nat.add_0_r.
Qed.

Lemma index_last_shape {E} (a : ndarray E) x y :
  shape a = [x; y; 1] →
  ∃ b, index_last 0 a = inr b ∧ shape b = [x; y].
Proof.
  intros Hs. unfold index_last, take_axis, ndim. rewrite Hs. simpl. eauto.
Qed.

Lemma index_first_singleton {E} (a : ndarray E) y z :
  shape a = [1; y; z] →
  ∃ b, index_first 0 a = inr b ∧ shape b = [y; z] ∧
       (well_formed a → flat b = flat a).
Proof.
  intros Hs. unfold index_first, take_axis. rewrite Hs. simpl.
  eexists. split; [done|]. split; [done|]. simpl.
  unfold well_formed. rewrite Hs. simpl. intros Hw.
  rewrite app_nil_r. apply take_ge. lia.
Qed.

Lemma draw_inr ax a ax' : draw ax a = inr ax' → ax' = ax ++ [a].
Proof. unfold draw. destruct (draw_fault ax a); [done|]. by intros [= <-]. Qed.

Lemma draw_all_inr artists ax ax' :
  draw_all ax artists = inr ax' → ax' = ax ++ artists.
Proof.
  revert ax. induction artists as [|a rest IH]; intros ax; simpl.
  - intros [= <-]. by rewrite app_nil_r.
  - destruct (draw ax a) as [|ax1] eqn:Hd; [done|].
    apply draw_inr in Hd as ->. intros Hrest. apply IH in Hrest as ->.
    by rewrite <- app_assoc.
Qed.

Lemma add_bboxes_inr bboxes ax lw color ax' :
  add_bboxes ax bboxes lw color = inr ax' → ∃ rects, ax' = ax ++ rects.
Proof.
  revert ax. induction bboxes as [|bbox rest IH]; intros ax; simpl.
  - intros [= <-]. exists []. by rewrite app_nil_r.
  - destruct (add_2d_bbox bbox lw color) as [|r]; [done|].
    destruct (draw ax r) as [|ax1] eqn:Hd; [done|].
    apply draw_inr in Hd as ->. intros Hrest.
    apply IH in Hrest as [rects ->]. exists (r :: rects).
    by rewrite <- app_assoc.
Qed.

Lemma plot_2d_base find_contours image mask bboxes points overlay
    lw mc bc pc oc ot oa fig :
  plot_2d find_contours image mask bboxes points overlay lw mc bc pc oc ot oa
    = inr fig →
  ∃ width height img cmap,
    shape image !! 1 = Some width ∧ shape image !! 0 = Some height ∧
    normalize_channels image = inr (img, cmap) ∧
    head (fig_artists fig)
      = Some (AxesImage (plain img) cmap None (Some (0, width, height, 0))) ∧
    (∀ o, overlay = Some o → add_2d_overlay o ot oc oa ∈ fig_artists fig).
Proof.
  unfold plot_2d, shape_at. intros Hfig.
  destruct (shape image !! 1) as [width|]; [|done].
  destruct (shape image !! 0) as [height|]; [|done].
  destruct (subplots_fault width height); [done|].
  destruct (normalize_channels image) as [|[img cmap]]; [done|].
  destruct (draw [] _) as [|ax0] eqn:H0; [done|].
  apply draw_inr in H0. simpl in H0. subst ax0.
  destruct (match mask with Some _ => _ | None => _ end) as [|ax1] eqn:H1;
    [done|].
  assert (∃ lines, ax1 = [AxesImage (plain img) cmap None
                                    (Some (0, width, height, 0))] ++ lines)
    as [lines ->].
  { destruct mask as [m|].
    - destruct (add_2d_contours find_contours m lw mc) as [|ls]; [done|].
      apply draw_all_inr in H1. eauto.
    - injection H1 as <-. by exists []. }
  destruct (match bboxes with Some _ => _ | None => _ end) as [|ax2] eqn:H2;
    [done|].
  assert (∃ rects, ax2 = ([AxesImage (plain img) cmap None
                                     (Some (0, width, height, 0))] ++ lines)
                         ++ rects) as [rects ->].
  { destruct bboxes as [bs|].
    - by apply add_bboxes_inr in H2.
    - injection H2 as <-. exists []. by rewrite app_nil_r. }
  destruct (match overlay with Some _ => _ | None => _ end) as [|ax3] eqn:H3;
    [done|].
  destruct (match points with Some _ => _ | None => _ end) as [|ax4] eqn:H4;
    [done|].
  assert (∃ dots, ax4 = ax3 ++ dots) as [dots ->].
  { destruct points as [p|].
    - destruct (column 1 p); [done|]. destruct (column 0 p); [done|].
      apply draw_inr in H4. eauto.
    - injection H4 as <-. exists []. by rewrite app_nil_r. }
  destruct (savefig_fault _); [done|].
  injection Hfig as <-. exists width, height, img, cmap.
  split; [done|]. split; [done|]. split; [done|]. simpl. split.
  - destruct overlay as [o|].
    + apply draw_inr in H3 as ->. done.
    + injection H3 as <-. done.
  - intros o ->. apply draw_inr in H3 as ->.
    rewrite !elem_of_app. left. right. by left.
Qed.

(** Claim C8.  A three-dimensional image handed to [plot_2d] loses its
    trailing axis when that axis has extent one, otherwise its leading axis
    when that one has extent one, and is left as it is when neither has;
    the elements are kept.  The image handed to [imshow] is the result of
    this step, with the gray colour map exactly when it is two-dimensional
    and with no colour map (native colour) otherwise: it is the first
    artist of every figure [plot_2d] returns, and the only one of the
    figure returned for a bare image that matplotlib accepts; when
    [imshow] refuses it, [plot_2d] raises the error of [imshow]. *)
Theorem plot_2d_channel_normalization find_contours image a b c :
  shape image = [a; b; c] →
  ∃ img cmap,
    normalize_channels image = inr (img, cmap) ∧
    (c = 1 → shape img = [a; b]) ∧
    (c ≠ 1 → a = 1 → shape img = [b; c]) ∧
    (c ≠ 1 → a ≠ 1 → img = image) ∧
    (well_formed image → flat img = flat image) ∧
    (cmap = Some "gray" ↔ ndim img = 2) ∧
    (ndim img ≠ 2 → cmap = None) ∧
    (∀ lw mc bc pc oc ot oa,
       let base := AxesImage (plain img) cmap None (Some (0, b, a, 0)) in
       let fig := {| fig_dpi := 100; fig_width_px := b; fig_height_px := a;
                     fig_artists := [base] |} in
       subplots_fault b a = None →
       draw_fault [] base = None →
       savefig_fault fig = None →
       plot_2d find_contours image None None None None lw mc bc pc oc ot oa
       = inr fig) ∧
    (∀ mask bboxes points overlay lw mc bc pc oc ot oa fig,
       plot_2d find_contours image mask bboxes points overlay
               lw mc bc pc oc ot oa = inr fig →
       head (fig_artists fig)
       = Some (AxesImage (plain img) cmap None (Some (0, b, a, 0)))) ∧
    (∀ mask bboxes points overlay lw mc bc pc oc ot oa e,
       subplots_fault b a = None →
       draw_fault [] (AxesImage (plain img) cmap None (Some (0, b, a, 0)))
       = Some e →
       plot_2d find_contours image mask bboxes points overlay
               lw mc bc pc oc ot oa = inl e).
Proof.
  intros Hs.
  assert (Hnorm : ∃ img, normalize_channels image
                    = inr (img, if ndim img =? 2 then Some "gray" else None) ∧
            (c = 1 → shape img = [a; b]) ∧
            (c ≠ 1 → a = 1 → shape img = [b; c]) ∧
            (c ≠ 1 → a ≠ 1 → img = image) ∧
            (well_formed image → flat img = flat image)).
  { unfold normalize_channels, ndim. rewrite Hs. simpl.
    destruct (Nat.eqb_spec c 1) as [->|Hc].
    - destruct (index_last_shape image a b Hs) as (img & Himg & Hshape).
      exists img. rewrite Himg. repeat split; try done.
      intros Hw. rewrite (index_last_singleton image a b Hs Hw) in Himg.
      by injection Himg as <-.
    - destruct (Nat.eqb_spec a 1) as [->|Ha].
      + destruct (index_first_singleton image b c Hs) as (img & Himg & Hshape & Hflat).
        exists img. rewrite Himg. repeat split; done.
      + exists image. repeat split; done. }
  destruct Hnorm as (img & Hnorm & H1 & H2 & H3 & H4).
  exists img, (if ndim img =? 2 then Some "gray" else None).
  repeat split; try done.
  - destruct (Nat.eqb_spec (ndim img) 2); done.
  - destruct (Nat.eqb_spec (ndim img) 2); done.
  - destruct (Nat.eqb_spec (ndim img) 2); done.
  - intros lw mc bc pc oc ot oa base fig Hsub Hdraw Hsave.
    unfold plot_2d, shape_at, draw. rewrite Hs. simpl.
    rewrite Hsub, Hnorm. fold base. rewrite Hdraw. simpl. fold fig.
    by rewrite Hsave.
  - intros * Hfig. apply plot_2d_base in Hfig
      as (width & height & img' & cmap' & Hw & Hh & Hn & Hhead & _).
    rewrite Hs in Hw, Hh. injection Hw as <-. injection Hh as <-.
    rewrite Hnorm in Hn. by injection Hn as <- <-.
  - intros * Hsub Hdraw. unfold plot_2d, shape_at, draw. rewrite Hs. simpl.
    by rewrite Hsub, Hnorm, Hdraw.
Qed.

(** Claim C10.  With a threshold equal to zero [add_2d_overlay] masks
    nothing: every value of the overlay, the negative ones included, reaches
    the colour map.  With any other threshold the values strictly below it,
    and only those, are masked.  The artist is the one [plot_2d] adds for
    its overlay. *)
Theorem overlay_zero_threshold_masks_nothing
    (overlay : ndarray float) (threshold : float) cmap alpha :
  (SFeqb threshold (S754_zero false) = true →
     add_2d_overlay overlay threshold cmap alpha
     = AxesImage (plain overlay) (Some cmap) (Some alpha) None ∧
     ∀ i, shown (plain overlay) i = flat overlay !! i) ∧
  (SFeqb threshold (S754_zero false) = false →
     add_2d_overlay overlay threshold cmap alpha
     = AxesImage (masked_where_lt threshold overlay) (Some cmap) (Some alpha)
                 None ∧
     ∀ i (v : float), flat overlay !! i = Some v →
       shown (masked_where_lt threshold overlay) i
       = if SFltb v threshold then None else Some v) ∧
  (∀ find_contours image mask bboxes points lw mc bc pc fig,
     plot_2d find_contours image mask bboxes points (Some overlay)
             lw mc bc pc cmap threshold alpha = inr fig →
     add_2d_overlay overlay threshold cmap alpha ∈ fig_artists fig).
Proof.
  split; [|split].
  - intros Hz. unfold add_2d_overlay, float_truthy. rewrite Hz. done.
  - intros Hz. unfold add_2d_overlay, float_truthy. rewrite Hz. split; [done|].
    intros i v Hv. unfold shown. simpl.
    rewrite list_lookup_fmap, !Hv. simpl.
    by destruct (SFltb v threshold).
  - intros * Hfig. apply plot_2d_base in Hfig
      as (_ & _ & _ & _ & _ & _ & _ & _ & Hov). by apply Hov.
Qed.
End PlottingFacts.

Lemma plot_2d_channel_normalization_witness :
  shape (mk_ndarray [2; 2; 1] (map float_of_Z [1; 2; 3; 4]%Z)) = [2; 2; 1] ∧
  ∃ img,
    Plotting.normalize_channels
      (mk_ndarray [2; 2; 1] (map float_of_Z [1; 2; 3; 4]%Z))
    = inr (img, Some "gray") ∧
    shape img = [2; 2] ∧ flat img = map float_of_Z [1; 2; 3; 4]%Z ∧
    @Plotting.plot_2d Sim.agg (λ _ _, inr [])
      (mk_ndarray [2; 2; 1] (map float_of_Z [1; 2; 3; 4]%Z))
      None None None None (float_of_Z 2) "r" "b" "g" "jet"
      (float_ldexp 1 (-3)) (float_ldexp 1 (-3))
    = inr {| Plotting.fig_dpi := 100;
             Plotting.fig_width_px := 2;
             Plotting.fig_height_px := 2;
             Plotting.fig_artists :=
               [Plotting.AxesImage (Plotting.plain img) (Some "gray") None
                  (Some (0, 2, 2, 0))] |}.
Proof.
  split; [reflexivity|].
  destruct (@plot_2d_channel_normalization Sim.agg (λ _ _, inr [])
              (mk_ndarray [2; 2; 1] (map float_of_Z [1; 2; 3; 4]%Z)) 2 2 1)
    as (img & cmap & Hnorm & Hlast & _ & _ & Hflat & Hgray & _ & Hbare & _);
    [reflexivity|].
  exists img. rewrite Hnorm.
  assert (Hshape : shape img = [2; 2]) by (apply Hlast; reflexivity).
  assert (Hcmap : cmap = Some "gray").
  { apply Hgray. unfold ndim. rewrite Hshape. reflexivity. }
  split; [|split; [|split]].
  - f_equal. f_equal. exact Hcmap.
  - exact Hshape.
  - apply Hflat. reflexivity.
  - rewrite <- Hcmap. apply Hbare; reflexivity.
Defined.

Lemma overlay_zero_threshold_masks_nothing_witness :
  let overlay := mk_ndarray [1; 2] [float_of_Z (-1); float_ldexp 1 (-1)] in
  Plotting.shown (Plotting.plain overlay) 0 = Some (float_of_Z (-1)) ∧
  Plotting.shown (Plotting.masked_where_lt (float_ldexp 1 (-1)) overlay) 0
  = None.
Proof.
  intros overlay. split.
  - destruct (@overlay_zero_threshold_masks_nothing Sim.agg overlay
                (S754_zero false) "jet" (float_ldexp 1 (-3))) as [Hzero _].
    destruct (Hzero eq_refl) as [_ Hshown]. rewrite Hshown. reflexivity.
  - destruct (@overlay_zero_threshold_masks_nothing Sim.agg overlay
                (float_ldexp 1 (-1)) "jet" (float_ldexp 1 (-3)))
      as (_ & Hnonzero & _).
    destruct (Hnonzero eq_refl) as [_ Hshown].
    rewrite (Hshown 0 (float_of_Z (-1)) eq_refl). reflexivity.
Defined.

(** ** Strings, paths and decimal numerals *)

Import Writers.

Section StringFacts.

Lemma rfind_get c s i : Py.rfind c s = Some i → String.get i s = Some c.
Proof.
  revert i. induction s as [|a s IH]; intros i; simpl; [done|].
  destruct (Py.rfind c s) as [j|].
  - intros [= <-]. by apply IH.
  - destruct (Ascii.eqb_spec a c) as [->|]; [|done]. by intros [= <-].
Qed.


Lemma get_lt c s i : String.get i s = Some c → i < String.length s.
Proof.
  revert i. induction s as [|a s IH]; intros i; [by destruct i|].
  destruct i as [|i]; simpl; [lia|]. intros Hg. apply IH in Hg. lia.
Qed.



Lemma append_inj_r s a b : s +:+ a = s +:+ b → a = b.
Proof. induction s as [|c s IH]; simpl; [done|]. intros [= Heq]. auto. Qed.

Lemma length_append s t :
  String.length (s +:+ t) = String.length s + String.length t.
Proof. induction s; simpl; auto. Qed.

Lemma append_inj_l s a b : a +:+ s = b +:+ s → a = b.
Proof.
  intros Heq.
  assert (Hlen : String.length a = String.length b).
  { apply (f_equal String.length) in Heq. rewrite !length_append in Heq. lia. }
  revert b Heq Hlen. induction a as [|c a IH]; intros [|d b]; simpl; try done.
  intros [= -> Heq] [= Hlen]. f_equal. auto.
Qed.


Lemma decode_zeros k s : decode (Py.zeros k +:+ s) = decode s.
Proof.
  unfold decode. induction k as [|k IH]; simpl; [done|].
  destruct (NilEmpty.uint_of_string (Py.zeros k +:+ s)) as [d|] eqn:Hd;
    destruct (NilEmpty.uint_of_string s) as [d'|]; simpl in *; try done.
Qed.

Lemma decode_str_int z : (0 ≤ z)%Z → decode (Py.str_int z) = Some z.
Proof.
  intros Hz. unfold decode, Py.str_int.
  pose proof (DecimalZ.of_to z) as Hof.
  destruct (Z.to_int z) as [d|d] eqn:Hd.
  - assert (Hd' : ∃ d', NilEmpty.uint_of_string (NilZero.string_of_uint d)
                          = Some d' ∧ Z.of_uint d' = Z.of_uint d).
    { destruct d; try (eexists; split; [apply NilEmpty.usu|done]).
      by exists Decimal.zero. }
    cbn [NilZero.string_of_int]. destruct Hd' as (d' & -> & Hd').
    simpl. f_equal. rewrite Hd'. exact Hof.
  - destruct z; simpl in Hd; try done; lia.
Qed.

Lemma decode_format_03d z : (0 ≤ z)%Z → decode (Py.format_03d z) = Some z.
Proof.
  intros Hz. unfold Py.format_03d.
  destruct (Z.ltb_spec z 0); [lia|].
  rewrite decode_zeros. by apply decode_str_int.
Qed.

Lemma format_03d_inj (i j : nat) :
  Py.format_03d (Z.of_nat i) = Py.format_03d (Z.of_nat j) → i = j.
Proof.
  intros Heq. apply (f_equal decode) in Heq.
  rewrite !decode_format_03d in Heq by lia. injection Heq. lia.
Qed.

Lemma pathlib_join_inj dir a b :
  Py.pathlib_join dir a = Py.pathlib_join dir b → a = b.
Proof.
  unfold Py.pathlib_join. destruct (String.eqb dir "."); [done|].
  destruct (Py.endswith "/" dir); intros Heq.
  - by apply append_inj_r in Heq.
  - apply append_inj_r in Heq. by apply (append_inj_r "/") in Heq.
Qed.

Lemma slice_name_inj series i j :
  Writers.slice_name series i = Writers.slice_name series j → i = j.
Proof.
  unfold Writers.slice_name. intros Heq.
  apply (append_inj_r "IMG-") in Heq. apply append_inj_r in Heq.
  apply (append_inj_r "-") in Heq. apply append_inj_l in Heq.
  by apply format_03d_inj.
Qed.

Lemma slice_path_inj dir series i j :
  Py.pathlib_join dir (Writers.slice_name series i)
  = Py.pathlib_join dir (Writers.slice_name series j) → i = j.
Proof. intros Heq. by apply pathlib_join_inj, slice_name_inj in Heq. Qed.


Lemma rfind_app_none c s t :
  Py.rfind c t = None → Py.rfind c (s +:+ t) = Py.rfind c s.
Proof. intros Ht. induction s as [|a s IH]; simpl; [done|]. by rewrite IH. Qed.

Lemma rfind_app_some c s t j :
  Py.rfind c t = Some j → Py.rfind c (s +:+ t) = Some (String.length s + j).
Proof. intros Ht. induction s as [|a s IH]; simpl; [done|]. by rewrite IH. Qed.

Lemma substring_app_r s t i m :
  String.substring (String.length s + i) m (s +:+ t) = String.substring i m t.
Proof. induction s as [|a s IH]; simpl; done. Qed.

Lemma substring_full s : String.substring 0 (String.length s) s = s.
Proof. induction s as [|a s IH]; simpl; [done|]. by rewrite IH. Qed.

Lemma substring_app_l s t i :
  i ≤ String.length s →
  String.substring i (String.length s + String.length t - i) (s +:+ t)
  = String.substring i (String.length s - i) s +:+ t.
Proof.
  revert i. induction s as [|a s IH]; intros i Hi; simpl in *.
  - assert (i = 0) as -> by lia. rewrite Nat.sub_0_r. apply substring_full.
  - destruct i as [|i].
    + specialize (IH 0). rewrite !Nat.sub_0_r in IH.
      change (String a (String.substring 0 (String.length s + String.length t)
                          (s +:+ t))
              = String a (String.substring 0 (String.length s) s +:+ t)).
      f_equal. apply IH. lia.
    + simpl. apply IH. lia.
Qed.

Lemma rfind_lt c s i : Py.rfind c s = Some i → i < String.length s.
Proof. intros Hr. eapply get_lt, rfind_get, Hr. Qed.

Lemma path_name_app s t :
  Py.rfind "/" t = None → Py.path_name (s +:+ t) = Py.path_name s +:+ t.
Proof.
  intros Ht. unfold Py.path_name. rewrite rfind_app_none by done.
  destruct (Py.rfind "/" s) as [i|] eqn:Hi; [|done].
  apply rfind_lt in Hi. rewrite length_append.
  replace (String.length s + String.length t - S i)
    with (String.length s + String.length t - S i) by done.
  apply substring_app_l. lia.
Qed.

Lemma substring_split s n :
  n ≤ String.length s →
  s = String.substring 0 n s +:+ String.substring n (String.length s - n) s.
Proof.
  revert n. induction s as [|a s IH]; intros n Hn; simpl in *.
  - by assert (n = 0) as -> by lia.
  - destruct n as [|n]; simpl.
    + by rewrite substring_full.
    + change (String a s = String a (String.substring 0 n s +:+
                String.substring n (String.length s - n) s)).
      f_equal. apply IH. lia.
Qed.

Lemma endswith_app p s : Py.endswith p s = true → ∃ q, s = q +:+ p.
Proof.
  unfold Py.endswith. intros Hend. apply andb_true_iff in Hend as [Hlen Heq].
  apply Nat.leb_le in Hlen. apply String.eqb_eq in Heq.
  exists (String.substring 0 (String.length s - String.length p) s).
  pose proof (substring_split s (String.length s - String.length p)) as Hs.
  replace (String.length s - (String.length s - String.length p))
    with (String.length p) in Hs by lia.
  rewrite Heq in Hs. apply Hs. lia.
Qed.

Lemma suffix_nii_gz filepath :
  Py.endswith ".nii.gz" filepath = true → Py.suffix filepath = ".gz".
Proof.
  intros Hend. apply endswith_app in Hend as [q ->].
  unfold Py.suffix. rewrite path_name_app by done.
  rewrite (rfind_app_some _ _ _ 4) by done.
  rewrite length_append. simpl String.length.
  replace ((0 <? String.length (Py.path_name q) + 4)
           && (String.length (Py.path_name q) + 4
               <? String.length (Py.path_name q) + 7 - 1)) with true.
  - replace (String.length (Py.path_name q) + 7
             - (String.length (Py.path_name q) + 4)) with 3 by lia.
    by rewrite substring_app_r.
  - symmetry. apply andb_true_iff. split; apply Nat.ltb_lt; lia.
Qed.

Lemma nii_gz_has_no_possible_ext filepath :
  Py.endswith ".nii.gz" filepath = true → has_possible_ext filepath = false.
Proof.
  intros Hend. unfold has_possible_ext. by rewrite (suffix_nii_gz _ Hend).
Qed.

Lemma append_assoc s t u : (s +:+ t) +:+ u = s +:+ (t +:+ u).
Proof.
  induction s as [|a s IH]; [done|].
  change (String a ((s +:+ t) +:+ u) = String a (s +:+ (t +:+ u))).
  by f_equal.
Qed.








Lemma prefix_app s t : String.prefix s (s +:+ t) = true.
Proof.
  induction s as [|a s IH]; simpl; [by destruct t|].
  destruct (ascii_dec a a); done.
Qed.


Lemma endswith_append q p : Py.endswith p (q +:+ p) = true.
Proof.
  unfold Py.endswith. apply andb_true_iff. split.
  - apply Nat.leb_le. rewrite length_append. lia.
  - apply String.eqb_eq. rewrite length_append.
    replace (String.length q + String.length p - String.length p)
      with (String.length q + 0) by lia.
    rewrite substring_app_r. apply substring_full.
Qed.

Lemma slice_name_fnmatch series idx :
  Py.fnmatch_IMG_dcm (slice_name series idx) = true.
Proof.
  unfold Py.fnmatch_IMG_dcm, slice_name.
  apply andb_true_iff. split; [apply andb_true_iff; split|].
  - apply (prefix_app "IMG-").
  - rewrite <- !append_assoc. apply endswith_append.
  - apply Nat.leb_le. rewrite !length_append. simpl. lia.
Qed.









End StringFacts.

(** ** The writer *)

Section WriterFacts.

Context `{Libraries}.

Lemma write_image_prepared data filepath compression metadata resample img w :
  prepare data metadata resample = inr img →
  write_image data filepath compression metadata resample w =
  if has_possible_ext filepath then
    write_single img filepath compression w
  else
    match files w !! filepath with
    | Some Directory =>
        write_series data img filepath compression (default ∅ metadata) w
    | _ => (inl (ValueError ("Filename extension has to be one of "
                             +:+ possible_exts_repr +:+ " or a directory.")),
            w)
    end.
Proof.
  intros Hp. unfold write_image, bind, lift. rewrite Hp. simpl.
  destruct (has_possible_ext filepath); [done|].
  unfold is_dir. destruct (files w !! filepath) as [[]|]; done.
Qed.

Lemma write_image_unprepared data filepath compression metadata resample e w :
  prepare data metadata resample = inl e →
  write_image data filepath compression metadata resample w = (inl e, w).
Proof. intros Hp. unfold write_image, bind, lift. by rewrite Hp. Qed.

Lemma prepare_metadata data metadata resample img :
  prepare data metadata resample = inr img → ∃ m, metadata = Some m.
Proof.
  unfold prepare. destruct (GetImageFromArray data); [done|].
  destruct metadata; [eauto|done].
Qed.

(** Claim C9.  Called with the metadata left at its default [None],
    [write_image] raises and leaves the file system as it was, whatever the
    destination; once the image has been built from the array the error is
    the [TypeError] of subscripting [None] at the read of
    [metadata['spacing']]. *)
Theorem write_image_without_metadata_raises data filepath compression resample w :
  ∃ e, write_image data filepath compression None resample w = (inl e, w) ∧
       ∀ img, GetImageFromArray data = inr img →
              e = TypeError "'NoneType' object is not subscriptable".
Proof.
  destruct (GetImageFromArray data) as [e|img] eqn:Himg.
  - exists e. split; [|done]. apply write_image_unprepared.
    unfold prepare. by rewrite Himg.
  - eexists. split; [|done]. apply write_image_unprepared.
    unfold prepare. by rewrite Himg.
Qed.

Lemma write_series_rejects_non_3d data img filepath compression metadata w :
  ndim data ≠ 3 →
  write_series data img filepath compression metadata w
  = (inl (ValueError ("For dicom series, only 3D data is supported. Got "
                      +:+ Py.str_int (Z.of_nat (ndim data)) +:+ ".")), w).
Proof.
  intros Hnd. unfold write_series.
  destruct (Nat.eqb_spec (ndim data) 3); done.
Qed.

(** Claim C5, as amended.  The destination is an existing directory in
    whose final suffix line 55 finds none of its extensions, and the array
    does not have exactly three dimensions.  When the image preparation of
    lines 42 to 53 goes through, [write_image] raises the validation error
    "For dicom series, only 3D data is supported. Got <ndim>."; when the
    preparation raises, its error is the one raised.  Either way the call
    raises and the file system is as it was. *)
Theorem write_image_directory_rejects_non_3d
    data filepath compression metadata resample w :
  has_possible_ext filepath = false →
  files w !! filepath = Some Directory →
  ndim data ≠ 3 →
  (∀ img, prepare data metadata resample = inr img →
     write_image data filepath compression metadata resample w
     = (inl (ValueError ("For dicom series, only 3D data is supported. Got "
                         +:+ Py.str_int (Z.of_nat (ndim data)) +:+ ".")),
        w)) ∧
  (∀ e, prepare data metadata resample = inl e →
     write_image data filepath compression metadata resample w = (inl e, w)) ∧
  ∃ e, write_image data filepath compression metadata resample w = (inl e, w).
Proof.
  intros Hext Hdir Hnd.
  assert (Hok : ∀ img, prepare data metadata resample = inr img →
     write_image data filepath compression metadata resample w
     = (inl (ValueError ("For dicom series, only 3D data is supported. Got "
                         +:+ Py.str_int (Z.of_nat (ndim data)) +:+ ".")),
        w)).
  { intros img Hp. rewrite (write_image_prepared _ _ _ _ _ img) by done.
    rewrite Hext, Hdir. by apply write_series_rejects_non_3d. }
  split; [exact Hok|]. split.
  - intros e Hp. by apply write_image_unprepared.
  - destruct (prepare data metadata resample) as [e|img] eqn:Hp.
    + exists e. by apply write_image_unprepared.
    + eexists. by apply (Hok img).
Qed.

Lemma write_single_swallows img filepath compression w msg :
  WriteImage_fault (files w) img filepath
    (if String.eqb (Py.suffix filepath) "nii.gz" then true else compression)
    = Some msg →
  Py.startswith "Exception thrown in SimpleITK WriteImage" msg = true →
  Py.contains ("Write: Error writing " +:+ filepath) msg = false →
  write_single img filepath compression w = (inr tt, w).
Proof.
  intros Hf Hs Hc. unfold write_single. by rewrite Hf, Hs, Hc.
Qed.


Lemma nii_gz_destination_rejected
    data filepath compression metadata resample w img :
  Py.endswith ".nii.gz" filepath = true →
  prepare data metadata resample = inr img →
  files w !! filepath ≠ Some Directory →
  write_image data filepath compression metadata resample w
  = (inl (ValueError ("Filename extension has to be one of "
                      +:+ possible_exts_repr +:+ " or a directory.")), w).
Proof.
  intros Hend Hp Hdir. rewrite (write_image_prepared _ _ _ _ _ img) by done.
  rewrite (nii_gz_has_no_possible_ext _ Hend).
  destruct (files w !! filepath) as [[]|]; done.
Qed.

Lemma curr_series_of_max z zs :
  curr_series_of (z :: zs) ∈ z :: zs ∧
  Forall (λ x, (x ≤ curr_series_of (z :: zs))%Z) (z :: zs).
Proof.
  unfold curr_series_of, Py.max_list. revert z.
  induction zs as [|y zs IH]; intros z; simpl.
  - split; [by left|]. apply Forall_cons. split; [lia|done].
  - destruct (IH (Z.max z y)) as [Hin Hall]. split.
    + apply elem_of_cons in Hin as [Heq|Hin].
      * rewrite Heq. destruct (Z.max_spec z y) as [[_ ->]|[_ ->]].
        -- right. by left.
        -- by left.
      * right. by right.
    + apply Forall_cons in Hall as [Hm Hall].
      repeat (apply Forall_cons; split); try done; lia.
Qed.

(** *** One iteration of the loop, and the loop *)

(** An iteration either raises and leaves the files alone, or writes the
    file of its slice, whose Instance Number is the plain numeral of the
    index. *)
Lemma write_slice_cases img filepath compression stv series idx w :
  (∃ e w', write_slice img filepath compression stv series idx w = (inl e, w')
           ∧ files w' = files w) ∨
  (∃ s tags w',
     write_slice img filepath compression stv series idx w = (inr tt, w') ∧
     Slice img idx = inr s ∧
     tags !! "0020|0013" = Some (Py.str_int (Z.of_nat idx)) ∧
     files w' = <[Py.pathlib_join filepath (slice_name series idx)
                  := DicomSlice s tags compression]> (files w)).
Proof.
  unfold write_slice, bind, lift, now, raise, ret, put_file.
  destruct (Slice img idx) as [e|s]; [left; eauto|].
  destruct (set_series_tags ∅ stv) as [e|t0]; [left; eauto|]. simpl.
  destruct (TransformIndexToPhysicalPoint img [0; 0; idx]) as [e|p];
    [left; eauto|]. simpl.
  match goal with |- context [Execute_fault ?a ?b ?c ?d ?e] =>
    destruct (Execute_fault a b c d e) as [msg|] end.
  - left. eauto.
  - right. do 3 eexists. split; [done|]. split; [done|]. split; [|done].
    apply lookup_insert_eq.
Qed.

(** Whatever the outcome of the loop, it touches the files of its slices
    only. *)
Lemma for_each_frame img filepath compression stv series indices :
  ∀ w r w',
    for_each indices (write_slice img filepath compression stv series) w
      = (r, w') →
    ∀ path,
      (∀ idx, idx ∈ indices →
         path ≠ Py.pathlib_join filepath (slice_name series idx)) →
      files w' !! path = files w !! path.
Proof.
  induction indices as [|idx rest IH]; intros w r w' Hrun path Hpath.
  - by injection Hrun as <- <-.
  - simpl in Hrun. unfold bind at 1 in Hrun.
    destruct (write_slice_cases img filepath compression stv series idx w)
      as [(e & w1 & Hw & Hf)|(s & tags & w1 & Hw & _ & _ & Hf)];
      rewrite Hw in Hrun.
    + injection Hrun as <- <-. by rewrite Hf.
    + rewrite (IH _ _ _ Hrun path).
      * rewrite Hf. apply lookup_insert_ne. symmetry. apply Hpath. by left.
      * intros j Hj. apply Hpath. by right.
Qed.

(** A loop that returns has written the file of each of its slices. *)
Lemma for_each_slices_inv img filepath compression stv series n :
  ∀ a w w',
    for_each (seq a n) (write_slice img filepath compression stv series) w
      = (inr tt, w') →
    ∀ idx, a ≤ idx < a + n →
      ∃ s tags,
        Slice img idx = inr s ∧
        files w' !! Py.pathlib_join filepath (slice_name series idx)
          = Some (DicomSlice s tags compression) ∧
        tags !! "0020|0013" = Some (Py.str_int (Z.of_nat idx)).
Proof.
  induction n as [|n IH]; intros a w w' Hrun idx Hidx; [lia|].
  change (seq a (S n)) with (a :: seq (S a) n) in Hrun.
  cbn [for_each] in Hrun. unfold bind at 1 in Hrun.
  destruct (write_slice_cases img filepath compression stv series a w)
    as [(e & w1 & Hw & Hf)|(s & tags & w1 & Hw & Hs & Htag & Hf)];
    rewrite Hw in Hrun; [done|].
  destruct (decide (idx = a)) as [->|Hne].
  - exists s, tags. split; [done|]. split; [|done].
    rewrite (for_each_frame _ _ _ _ _ _ _ _ _ Hrun).
    + rewrite Hf. apply lookup_insert_eq.
    + intros j Hj Heq. apply elem_of_seq in Hj.
      apply slice_path_inj in Heq. lia.
  - apply (IH (S a) w1 w' Hrun). lia.
Qed.

(** The series branch, read backwards from a normal return. *)
Lemma write_series_inv data img filepath compression metadata w w' :
  write_series data img filepath compression metadata w = (inr tt, w') →
  ndim data = 3 ∧
  ∃ series_in_directory,
    series_in (glob_paths (files w) filepath) = inr series_in_directory ∧
    series_written img filepath compression
      (curr_series_of series_in_directory) (GetDepth img)
      (files w) (files w').
Proof.
  unfold write_series. intros Hrun.
  destruct (Nat.eqb_spec (ndim data) 3) as [Hnd|]; [|done].
  split; [done|]. simpl in Hrun.
  unfold bind at 1 in Hrun. unfold glob_IMG_dcm in Hrun.
  unfold bind at 1 in Hrun. unfold lift at 1 in Hrun.
  destruct (series_in (glob_paths (files w) filepath)) as [e|l]; [done|].
  exists l. split; [done|].
  unfold ret at 1 in Hrun.
  unfold bind at 1 in Hrun. unfold now at 1 in Hrun.
  unfold bind at 1 in Hrun. unfold now at 1 in Hrun.
  cbn [clock files] in Hrun.
  repeat (unfold bind at 1 in Hrun; unfold lift at 1 in Hrun;
          match type of Hrun with
          | context [tuple_at ?d ?i] =>
              destruct (tuple_at d i) as [e|?]; [done|]
          end; unfold ret at 1 in Hrun).
  split.
  - intros idx Hidx.
    apply (for_each_slices_inv _ _ _ _ _ _ _ _ _ Hrun). lia.
  - intros path Hpath.
    rewrite (for_each_frame _ _ _ _ _ _ _ _ _ Hrun); [done|].
    intros idx Hin. apply elem_of_seq in Hin. apply Hpath. lia.
Qed.

(** A call that goes to an existing directory and returns. *)
Lemma write_image_series_inv
    data filepath compression metadata resample w w' :
  has_possible_ext filepath = false →
  files w !! filepath = Some Directory →
  write_image data filepath compression metadata resample w = (inr tt, w') →
  ∃ img series_in_directory,
    prepare data metadata resample = inr img ∧
    ndim data = 3 ∧
    series_in (glob_paths (files w) filepath) = inr series_in_directory ∧
    series_written img filepath compression
      (curr_series_of series_in_directory) (GetDepth img)
      (files w) (files w').
Proof.
  intros Hext Hdir Hrun.
  destruct (prepare data metadata resample) as [e|img] eqn:Hp.
  - by rewrite (write_image_unprepared _ _ _ _ _ e) in Hrun.
  - rewrite (write_image_prepared _ _ _ _ _ img) in Hrun by done.
    rewrite Hext, Hdir in Hrun.
    apply write_series_inv in Hrun as (Hnd & l & Hl & Hw).
    by exists img, l.
Qed.

(** Claim C6, as amended.  Every iteration of the loop of a series write
    either raises and writes nothing, or writes the file of its slice,
    named with the series number and the index each padded with zeros to
    three characters, and the Instance Number tag (0020,0013) of that file
    is the plain decimal numeral of the index, without padding.  The padded
    numeral is the plain one behind the zeros it lacks to three characters.
    In particular, after a call that went to an existing directory and
    returned, each slice of the prepared image has its file, with the plain
    numeral of its index as Instance Number. *)
Theorem instance_number_is_unpadded :
  (∀ img filepath compression series_tag_values series idx w,
     (∃ e w',
        write_slice img filepath compression series_tag_values series idx w
        = (inl e, w') ∧ files w' = files w) ∨
     (∃ s tags w',
        write_slice img filepath compression series_tag_values series idx w
        = (inr tt, w') ∧
        files w'
        = <[Py.pathlib_join filepath
              ("IMG-" +:+ Py.format_03d series +:+ "-"
                      +:+ Py.format_03d (Z.of_nat idx) +:+ ".dcm")
            := DicomSlice s tags compression]> (files w) ∧
        tags !! "0020|0013" = Some (Py.str_int (Z.of_nat idx)))) ∧
  (∀ idx : nat,
     Py.format_03d (Z.of_nat idx)
     = Py.zeros (3 - String.length (Py.str_int (Z.of_nat idx)))
       +:+ Py.str_int (Z.of_nat idx)) ∧
  (∀ data filepath compression metadata resample w w',
     has_possible_ext filepath = false →
     files w !! filepath = Some Directory →
     write_image data filepath compression metadata resample w
     = (inr tt, w') →
     ∃ img series,
       prepare data metadata resample = inr img ∧
       ∀ idx, idx < GetDepth img →
         ∃ s tags,
           files w' !! Py.pathlib_join filepath
                         ("IMG-" +:+ Py.format_03d series +:+ "-"
                                 +:+ Py.format_03d (Z.of_nat idx) +:+ ".dcm")
           = Some (DicomSlice s tags compression) ∧
           tags !! "0020|0013" = Some (Py.str_int (Z.of_nat idx))).
Proof.
  split; [|split].
  - intros img filepath compression stv series idx w.
    destruct (write_slice_cases img filepath compression stv series idx w)
      as [(e & w1 & Hw & Hf)|(s & tags & w1 & Hw & _ & Htag & Hf)].
    + left. eauto.
    + right. exists s, tags, w1. done.
  - intros idx. unfold Py.format_03d.
    destruct (Z.ltb_spec (Z.of_nat idx) 0); [lia|done].
  - intros data filepath compression metadata resample w w' Hext Hdir Hrun.
    destruct (write_image_series_inv _ _ _ _ _ _ _ Hext Hdir Hrun)
      as (img & l & Hp & _ & _ & Hnew & _).
    exists img, (curr_series_of l). split; [done|].
    intros idx Hidx. destruct (Hnew idx Hidx) as (s & tags & _ & Hf & Htag).
    by exists s, tags.
Qed.


End WriterFacts.

(** ** The writer on a library that keeps SimpleITK's word *)

Section WriterLaws.

Context `{LibraryLaws}.





End WriterLaws.

(** ** The writer on the simulated library *)


(** A result whose first component is a normal return. *)
Lemma returned {W} (result : (Exn + unit) * W) :
  result.1 = inr tt → result = (inr tt, result.2).
Proof. destruct result as [r w]. simpl. by intros ->. Qed.


(** Claim C1.  Two successive writes into the directory [/out], empty at
    first: the scan of the second write finds the file of series 000, line
    73 takes the maximum found, 0, as the series number, and the second
    write overwrites [IMG-000-000.dcm]; no file of a series 001 appears. *)
Theorem second_write_reuses_series_000 :
  let first := @write_image Sim.sound (Sim.volume 1 5) "/out" true
                 (Some Sim.unit_spacing) false Sim.empty_out in
  let second := @write_image Sim.sound (Sim.volume 1 7) "/out" true
                  (Some Sim.unit_spacing) false first.2 in
  first.1 = inr tt ∧
  second.1 = inr tt ∧
  glob_paths (files first.2) "/out" = ["/out/IMG-000-000.dcm"] ∧
  @series_in Sim.sound (glob_paths (files first.2) "/out") = inr [0%Z] ∧
  curr_series_of [0%Z] = 0%Z ∧
  (∃ tags, files first.2 !! "/out/IMG-000-000.dcm"
     = Some (DicomSlice (mk_ndarray [1; 1] [float_of_Z 5]) tags true)) ∧
  (∃ tags, files second.2 !! "/out/IMG-000-000.dcm"
     = Some (DicomSlice (mk_ndarray [1; 1] [float_of_Z 7]) tags true)) ∧
  files second.2 !! "/out/IMG-001-000.dcm" = None.
Proof.
  intros first second.
  split; [vm_compute; reflexivity|]. split; [vm_compute; reflexivity|].
  split; [vm_compute; reflexivity|]. split; [vm_compute; reflexivity|].
  split; [reflexivity|].
  split; [eexists; vm_compute; reflexivity|].
  split; [eexists; vm_compute; reflexivity|].
  vm_compute. reflexivity.
Qed.



(** Claim C3.  The codec fails on [/out/vol.nrrd] with an error that
    opens with "Exception thrown in SimpleITK WriteImage" and does not
    report the destination as unwritable: [write_image] returns normally,
    without raising and without writing. *)
Theorem unrecognised_codec_error_is_swallowed :
  @WriteImage_fault Sim.failing (files Sim.empty_out) (Sim.volume 1 5)
    "/out/vol.nrrd" true = Some Sim.no_writer_message ∧
  Py.contains "Write: Error writing /out/vol.nrrd" Sim.no_writer_message
  = false ∧
  @write_image Sim.failing (Sim.volume 1 5) "/out/vol.nrrd" true
    (Some Sim.unit_spacing) false Sim.empty_out
  = (inr tt, Sim.empty_out).
Proof.
  split; [reflexivity|]. split; [vm_compute; reflexivity|].
  rewrite (@write_image_prepared Sim.failing _ _ _ _ _ (Sim.volume 1 5))
    by reflexivity.
  change (has_possible_ext "/out/vol.nrrd") with true. cbv iota.
  apply (@write_single_swallows Sim.failing _ _ _ _ Sim.no_writer_message);
    vm_compute; reflexivity.
Qed.

(** Claim C4.  A destination that ends in [.nii.gz], written with
    compression switched off: its [pathlib] suffix is [.gz], no extension of
    the list occurs in it, and the call ends in the invalid-destination
    error without reaching the codec, so that no compression flag is forced
    to true. *)
Theorem nii_gz_write_is_rejected :
  Py.suffix "/out/vol.nii.gz" = ".gz" ∧
  has_possible_ext "/out/vol.nii.gz" = false ∧
  @write_image Sim.sound (Sim.volume 1 5) "/out/vol.nii.gz" false
    (Some Sim.unit_spacing) false Sim.empty_out
  = (inl (ValueError "Filename extension has to be one of ['.nrrd', '.mhd', '.mha', '.nii', '.nii.gz', '.dcm'] or a directory."),
     Sim.empty_out).
Proof.
  split; [vm_compute; reflexivity|]. split; [vm_compute; reflexivity|].
  apply (@nii_gz_destination_rejected Sim.sound _ _ _ _ _ _ (Sim.volume 1 5)).
  - vm_compute. reflexivity.
  - reflexivity.
  - vm_compute. discriminate.
Qed.

(** Claim C5, counterexample.  The existing directory [/data/scans.dcm]
    and a two-dimensional array: line 55 finds [.dcm] in the suffix, the
    call goes to the single-file codec and line 70 is never reached.  With
    a codec that accepts the path the call returns; with one that reports
    the path as unwritable it raises "Cannot write to /data/scans.dcm.".
    In neither case is the validation error raised. *)
Lemma directory_named_scans_dcm_skips_validation :
  let accepted := @write_image Sim.sound Sim.plane "/data/scans.dcm" true
                    (Some Sim.unit_spacing) false Sim.scans_dcm in
  let refused := @write_image Sim.refusing Sim.plane "/data/scans.dcm" true
                   (Some Sim.unit_spacing) false Sim.scans_dcm in
  files (@Sim.scans_dcm Sim.sound) !! "/data/scans.dcm" = Some Directory ∧
  ndim Sim.plane = 2 ∧
  has_possible_ext "/data/scans.dcm" = true ∧
  accepted.1 = inr tt ∧
  refused = (inl (RuntimeError "Cannot write to /data/scans.dcm."),
             Sim.scans_dcm).
Proof. repeat split; vm_compute; reflexivity. Qed.

Lemma write_image_directory_rejects_non_3d_witness :
  @write_image Sim.sound Sim.plane "/out" true (Some Sim.unit_spacing) false
    Sim.empty_out
  = (inl (ValueError "For dicom series, only 3D data is supported. Got 2."),
     Sim.empty_out) ∧
  @write_image Sim.sound Sim.plane "/out" true None false Sim.empty_out
  = (inl (TypeError "'NoneType' object is not subscriptable"), Sim.empty_out).
Proof.
  split.
  - destruct (@write_image_directory_rejects_non_3d Sim.sound Sim.plane
                "/out" true (Some Sim.unit_spacing) false Sim.empty_out)
      as (Hprepared & _ & _).
    + reflexivity.
    + reflexivity.
    + unfold ndim. simpl. lia.
    + apply (Hprepared Sim.plane). reflexivity.
  - destruct (@write_image_directory_rejects_non_3d Sim.sound Sim.plane
                "/out" true None false Sim.empty_out)
      as (_ & Hunprepared & _).
    + reflexivity.
    + reflexivity.
    + unfold ndim. simpl. lia.
    + apply Hunprepared. reflexivity.
Defined.

(** Claim C6, counterexample.  The file written for slice 0 is named with
    the padded index [000] and carries the Instance Number [0], which is not
    the zero-padded numeral. *)
Lemma instance_number_of_slice_0_is_not_padded :
  let result := @write_image Sim.sound (Sim.volume 1 5) "/out" true
                  (Some Sim.unit_spacing) false Sim.empty_out in
  ∃ s tags,
    result.1 = inr tt ∧
    files result.2 !! "/out/IMG-000-000.dcm" = Some (DicomSlice s tags true) ∧
    Py.format_03d 0 = "000" ∧
    tags !! "0020|0013" = Some "0" ∧
    tags !! "0020|0013" ≠ Some (Py.format_03d 0).
Proof.
  eexists. eexists. split; [vm_compute; reflexivity|].
  split; [vm_compute; reflexivity|]. split; [reflexivity|].
  split; [vm_compute; reflexivity|]. vm_compute. discriminate.
Qed.

Lemma instance_number_is_unpadded_witness :
  let result := @write_image Sim.sound (Sim.volume 2 5) "/out" true
                  (Some Sim.unit_spacing) false Sim.empty_out in
  result.1 = inr tt ∧
  ∃ series s tags,
    files result.2 !! Py.pathlib_join "/out"
                        ("IMG-" +:+ Py.format_03d series +:+ "-001.dcm")
    = Some (DicomSlice s tags true) ∧
    tags !! "0020|0013" = Some "1".
Proof.
  intros result. split; [vm_compute; reflexivity|].
  destruct (@instance_number_is_unpadded Sim.sound) as (_ & _ & Hcall).
  destruct (Hcall (Sim.volume 2 5) "/out" true (Some Sim.unit_spacing) false
              Sim.empty_out result.2)
    as (img & series & Himg & Hslices).
  - reflexivity.
  - reflexivity.
  - apply returned. vm_compute. reflexivity.
  - assert (Hprepared : @prepare Sim.sound (Sim.volume 2 5)
                           (Some Sim.unit_spacing) false
                         = inr (Sim.volume 2 5)) by reflexivity.
    rewrite Hprepared in Himg. injection Himg as <-.
    destruct (Hslices 1) as (s & tags & Hfile & Htag);
      [change (1 < 2); lia|].
    exists series, s, tags. split; [exact Hfile|exact Htag].
Defined.



Lemma write_image_without_metadata_raises_witness :
  @write_image Sim.sound (Sim.volume 2 5) "/out/vol.nrrd" true None false
    Sim.empty_out
  = (inl (TypeError "'NoneType' object is not subscriptable"), Sim.empty_out).
Proof.
  destruct (@write_image_without_metadata_raises Sim.sound (Sim.volume 2 5)
              "/out/vol.nrrd" true false Sim.empty_out) as (e & Hrun & Herr).
  rewrite Hrun. rewrite (Herr (Sim.volume 2 5) eq_refl). reflexivity.
Defined.
